(** * python-scsi: the device session and the bit-field codec

    A shallow embedding of [pyscsi/pyscsi/scsi_device.py] (class
    [SCSIDevice]) and of the field layout of
    [pyscsi/pyscsi/scsi_cdb_positiontoelement.py], with the properties
    the specification states about them. *)

From Stdlib Require Import ZArith List Bool Lia.
From stdpp Require Import base option strings list gmap.

Local Open Scope Z_scope.

(** Buffers ([bytearray] objects) are lists of byte values. *)
Abbreviation bytes := (list Z).

(** * Exceptions and outcomes *)

(** The exceptions that can leave the methods of [SCSIDevice].
    [OSError] stands for whatever [os.stat] or the [linux_sgio] extension
    raises; [CheckCondition] and [SCSISGIOError] are the two classes the
    metaclass [SCSIDeviceCommandExceptionMeta] attaches to the device. *)
Inductive exn : Type :=
| NotImplementedError (msg : string)
| TypeError (msg : string)
| OSError (errno : Z)
| CheckCondition (sense : bytes)
| SCSISGIOError.

Inductive outcome (A : Type) : Type :=
| Return (a : A)
| Raise (e : exn).
Arguments Return {A} a.
Arguments Raise {A} e.

Definition is_raise {A} (r : outcome A) : bool :=
  match r with Raise _ => true | Return _ => false end.

(** * The collaborators of the session *)

(** [linux_sgio.DXFER_NONE], [DXFER_FROM_DEV] and [DXFER_TO_DEV]. *)
Inductive dxfer : Type := DXFER_NONE | DXFER_FROM_DEV | DXFER_TO_DEV.

(** One call into [os.stat] or into the [linux_sgio] extension, with what
    it was given and what came back. *)
Inductive event : Type :=
| Stat (file : string) (r : outcome Z)
| Open (file : string) (read_write : bool) (r : outcome Z)
| Close (fd : option Z) (r : outcome unit)
| Execute (fd : option Z) (dir : dxfer) (cdb dataout datain sense : bytes)
          (r : outcome (Z * bytes * bytes)).

Definition is_open (ev : event) : bool :=
  match ev with Open _ _ _ => true | _ => false end.
Definition is_close (ev : event) : bool :=
  match ev with Close _ _ => true | _ => false end.
Definition is_execute (ev : event) : bool :=
  match ev with Execute _ _ _ _ _ _ _ => true | _ => false end.

(** Whether the call behind an event raised. *)
Definition raised (ev : event) : bool :=
  match ev with
  | Stat _ r => is_raise r
  | Open _ _ r => is_raise r
  | Close _ r => is_raise r
  | Execute _ _ _ _ _ _ r => is_raise r
  end.

(** The operating system and the transport, as functions of a state [W]
    of their own.  [sgio_execute] answers with the status and with the
    contents it leaves in the [datain] and [sense] buffers. *)
Record backend (W : Type) : Type := Backend {
  os_stat_st_ino : string -> W -> outcome Z * W;
  sgio_open : string -> bool -> W -> outcome Z * W;
  sgio_close : option Z -> W -> outcome unit * W;
  sgio_execute : option Z -> dxfer -> bytes -> bytes -> bytes -> bytes ->
                 W -> outcome (Z * bytes * bytes) * W
}.
Arguments os_stat_st_ino {W} _ _ _.
Arguments sgio_open {W} _ _ _ _.
Arguments sgio_close {W} _ _ _.
Arguments sgio_execute {W} _ _ _ _ _ _ _ _.

(** The members of [scsi_enum_command.SCSI_STATUS] that [execute] reads.
    The enumeration lives in a module outside this development, so its
    values are parameters. *)
Record SCSI_STATUS : Type := ScsiStatus {
  CHECK_CONDITION : Z;
  SGIO_ERROR : Z
}.

(** * The objects *)

(** The attributes of a [SCSIDevice] that its methods read after
    [__init__]; [_opcodes] and [_devicetype] are only stored and handed
    back by their properties and are left out. *)
Record SCSIDevice : Type := mkDevice {
  _file_name : string;
  _read_write : bool;
  _fd : option Z;
  _ino : option Z;
  _detect_replugged : bool
}.

(** The attributes of a [SCSICommand] that [execute] touches. *)
Record SCSICommand : Type := mkCommand {
  cdb : bytes;
  dataout : bytes;
  datain : bytes;
  sense : bytes
}.

(** * Programs: state, exceptions and the trace of calls *)

Section Session.

Context {W : Type}.
Variable B : backend W.
Variable status_enum : SCSI_STATUS.
Variable _has_sgio : bool.

(** The store holds the device object ([self]), the command object the
    caller passed by reference ([cmd]) and the state of the outside. *)
Record store : Type := mkStore {
  self : SCSIDevice;
  cmd : SCSICommand;
  os : W
}.

(** What running a method gives: its outcome, the store it leaves, and
    the calls it made, oldest first. *)
Record run (A : Type) : Type := mkRun {
  result : outcome A;
  final : store;
  trace : list event
}.
Arguments mkRun {A} _ _ _.
Arguments result {A} _.
Arguments final {A} _.
Arguments trace {A} _.

Definition M (A : Type) : Type := store -> run A.

Definition ret {A} (a : A) : M A := fun s => mkRun (Return a) s [].

Definition raise {A} (e : exn) : M A := fun s => mkRun (Raise e) s [].

Definition bind {A C} (m : M A) (k : A -> M C) : M C := fun s =>
  match m s with
  | mkRun (Return a) s1 t1 =>
      match k a s1 with
      | mkRun r s2 t2 => mkRun r s2 (t1 ++ t2)
      end
  | mkRun (Raise e) s1 t1 => mkRun (Raise e) s1 t1
  end.

(** [try: body finally: handler].  The handler always runs; an exception
    of the handler replaces that of the body, and an exception of the
    body is raised again once the handler has returned. *)
Definition try_finally (body handler : M unit) : M unit := fun s =>
  match body s with
  | mkRun r1 s1 t1 =>
      match handler s1 with
      | mkRun (Raise e2) s2 t2 => mkRun (Raise e2) s2 (t1 ++ t2)
      | mkRun (Return _) s2 t2 => mkRun r1 s2 (t1 ++ t2)
      end
  end.

Local Notation "x <- m ; k" := (bind m (fun x => k))
  (at level 100, m at next level, right associativity).
Local Notation "m ;; k" := (bind m (fun _ => k))
  (at level 100, right associativity).

Definition get_self : M SCSIDevice := fun s => mkRun (Return (self s)) s [].
Definition get_cmd : M SCSICommand := fun s => mkRun (Return (cmd s)) s [].

Definition set_self (d : SCSIDevice) : M unit := fun s =>
  mkRun (Return tt) (mkStore d (cmd s) (os s)) [].

Definition set_fd (fd : option Z) : M unit := fun s =>
  let d := self s in
  mkRun (Return tt)
        (mkStore (mkDevice (_file_name d) (_read_write d) fd (_ino d)
                           (_detect_replugged d))
                 (cmd s) (os s)) [].

Definition set_ino (ino : option Z) : M unit := fun s =>
  let d := self s in
  mkRun (Return tt)
        (mkStore (mkDevice (_file_name d) (_read_write d) (_fd d) ino
                           (_detect_replugged d))
                 (cmd s) (os s)) [].

(** ** Calls to the outside *)

(** [os.stat(file).st_ino] *)
Definition get_inode (file : string) : M Z := fun s =>
  let '(r, w) := os_stat_st_ino B file (os s) in
  mkRun r (mkStore (self s) (cmd s) w) [Stat file r].

Definition linux_sgio_open (file : string) (read_write : bool) : M Z := fun s =>
  let '(r, w) := sgio_open B file read_write (os s) in
  mkRun r (mkStore (self s) (cmd s) w) [Open file read_write r].

Definition linux_sgio_close (fd : option Z) : M unit := fun s =>
  let '(r, w) := sgio_close B fd (os s) in
  mkRun r (mkStore (self s) (cmd s) w) [Close fd r].

(** The transport writes into the [datain] and [sense] buffers of the
    command it was handed, and returns the status. *)
Definition linux_sgio_execute (fd : option Z) (dir : dxfer) : M Z := fun s =>
  let c := cmd s in
  let '(r, w) := sgio_execute B fd dir (cdb c) (dataout c) (datain c) (sense c)
                              (os s) in
  let ev := Execute fd dir (cdb c) (dataout c) (datain c) (sense c) r in
  match r with
  | Return (status, datain', sense') =>
      mkRun (Return status)
            (mkStore (self s) (mkCommand (cdb c) (dataout c) datain' sense') w)
            [ev]
  | Raise e => mkRun (Raise e) (mkStore (self s) c w) [ev]
  end.

(** ** The methods of [SCSIDevice] *)

Definition _is_replugged : M bool :=
  d <- get_self;
  ino <- get_inode (_file_name d);
  d <- get_self;
  ret (negb (bool_decide (Some ino = _ino d))).

Definition open : M unit :=
  d <- get_self;
  fd <- linux_sgio_open (_file_name d) (_read_write d);
  set_fd (Some fd);;
  d <- get_self;
  ino <- get_inode (_file_name d);
  set_ino (Some ino).

Definition close : M unit :=
  d <- get_self;
  linux_sgio_close (_fd d).

(** [len(b)] used as a condition. *)
Definition nonempty (b : bytes) : bool :=
  negb (Nat.eqb (length b) 0).

(** [NotImplemented] is the constant, not the exception class
    [NotImplementedError]: calling it is what raises. *)
Definition NotImplemented_call {A} (msg : string) : M A :=
  raise (TypeError "'NotImplementedType' object is not callable").

Definition execute : M unit :=
  d <- get_self;
  replugged <- (if _detect_replugged d then _is_replugged else ret false);
  (if replugged then try_finally close open else ret tt);;
  c <- get_cmd;
  _dir <- (if nonempty (datain c) && nonempty (dataout c)
           then NotImplemented_call "Indirect IO is not supported"
           else if nonempty (datain c) then ret DXFER_FROM_DEV
           else if nonempty (dataout c) then ret DXFER_TO_DEV
           else ret DXFER_NONE);
  d <- get_self;
  status <- linux_sgio_execute (_fd d) _dir;
  if status =? CHECK_CONDITION status_enum then
    c <- get_cmd;
    raise (CheckCondition (sense c))
  else if status =? SGIO_ERROR status_enum then
    raise SCSISGIOError
  else ret tt.

Definition __init__ (device : string) (readwrite detect_replugged : bool)
  : M unit :=
  set_self (mkDevice device readwrite None None detect_replugged);;
  if _has_sgio && String.eqb (String.substring 0 5 device) "/dev/" then open
  else raise (NotImplementedError ("No backend implemented for " +:+ device)).

End Session.

Arguments store : clear implicits.
Arguments run : clear implicits.
Arguments M : clear implicits.
Arguments mkStore {W} _ _ _.
Arguments mkRun {W A} _ _ _.
Arguments result {W A} _.
Arguments final {W A} _.
Arguments trace {W A} _.

(** ** The status mapper of the specification *)

Inductive classification : Type :=
| Success
| CheckConditionStatus
| TransportFailure.

(** The specification's words: a status code is a success, a check
    condition, or else a transport failure.  [GOOD] is the status code of
    a command that completed. *)
Definition spec_status_mapper (GOOD : Z) (status_enum : SCSI_STATUS)
  (status : Z) : classification :=
  if status =? GOOD then Success
  else if status =? CHECK_CONDITION status_enum then CheckConditionStatus
  else TransportFailure.

(** The direction the specification asks for. *)
Definition spec_direction (c : SCSICommand) : dxfer :=
  match datain c, dataout c with
  | [], [] => DXFER_NONE
  | _ :: _, _ => DXFER_FROM_DEV
  | [], _ :: _ => DXFER_TO_DEV
  end.

(** ** A scripted backend

    A backend that answers every call from a fixed script, in the manner
    of the [MockDevice] of the test suite.  It serves as the concrete
    outside of the examples below. *)

Record script : Type := mkScript {
  stat_first : outcome Z;     (* the probe made by [_is_replugged] *)
  close_reply : outcome unit;
  open_reply : outcome Z;
  stat_after_open : outcome Z;  (* the probe made by [open] *)
  execute_reply : outcome (Z * bytes * bytes)
}.

(** The state of the scripted outside: whether [open] has been called. *)
Definition scripted (sc : script) : backend bool :=
  Backend bool
    (fun _ opened => (if opened then stat_after_open sc else stat_first sc, opened))
    (fun _ _ _ => (open_reply sc, true))
    (fun _ opened => (close_reply sc, opened))
    (fun _ _ _ _ _ _ opened => (execute_reply sc, opened)).

(** Status codes of the SCSI architecture model: CHECK CONDITION is 02h;
    the transport reports its own failures as FFh.  GOOD is 00h and BUSY
    is 08h. *)
Definition sam_status : SCSI_STATUS := ScsiStatus 0x02 0xff.
Definition GOOD : Z := 0x00.
Definition BUSY : Z := 0x08.

(** A session opened on [/dev/sg0] when that path had inode 11. *)
Definition sg0 (detect_replugged : bool) : SCSIDevice :=
  mkDevice "/dev/sg0" false (Some 3) (Some 11) detect_replugged.

(** A six-byte TEST UNIT READY without data, one INQUIRY reading 96
    bytes, and a command with both buffers in use. *)
Definition test_unit_ready : SCSICommand :=
  mkCommand [0; 0; 0; 0; 0; 0] [] [] (repeat 0 32%nat).
Definition inquiry : SCSICommand :=
  mkCommand [0x12; 0; 0; 0; 96; 0] [] (repeat 0 96%nat) (repeat 0 32%nat).
Definition bidirectional : SCSICommand :=
  mkCommand [0x9d; 0; 0; 0; 0; 0] [1; 2] [0; 0; 0; 0] (repeat 0 32%nat).

(** Scripts for the examples: a quiet device that answers BUSY; a device
    replaced at its path (inode 12 instead of 11) whose stale handle
    cannot be closed; one whose path cannot be opened again; and one that
    reports a check condition with sense data. *)
Definition answers_busy : script :=
  mkScript (Return 11) (Return tt) (Return 4) (Return 11)
           (Return (BUSY, [], repeat 0 32%nat)).
Definition replugged_close_fails : script :=
  mkScript (Return 12) (Raise (OSError 9)) (Return 4) (Return 12)
           (Return (GOOD, [], repeat 0 32%nat)).
Definition replugged_open_fails : script :=
  mkScript (Return 12) (Return tt) (Raise (OSError 19)) (Return 12)
           (Return (GOOD, [], repeat 0 32%nat)).
Definition not_ready_sense : bytes :=
  [0x70; 0; 0x02; 0; 0; 0; 0; 0x0a; 0; 0; 0; 0; 0x04; 0x01; 0; 0; 0; 0].
Definition answers_check_condition : script :=
  mkScript (Return 11) (Return tt) (Return 4) (Return 11)
           (Return (0x02, [], not_ready_sense)).

(** The store of a session on [/dev/sg0] about to execute [c]. *)
Definition session (detect_replugged : bool) (c : SCSICommand) : store bool :=
  mkStore (sg0 detect_replugged) c false.

(** * The field codec

    The functions that pack and unpack a field layout
    ([SCSICommand.build_cdb], [marshall_datain], [unmarshall_datain] and
    the helpers of [scsi_utils]) are called by the sources at hand but
    defined outside them.  This module follows the specification of the
    codec; the layouts themselves are those of the sources. *)

Module FieldCodec.

(** Modelled from the spec: the outcome of the codec functions, which
    are not among the sources; the codec fails with ConfigurationError
    only. *)
Inductive result (A : Type) : Type :=
| Ok (a : A)
| ConfigurationError.
Arguments Ok {A} a.
Arguments ConfigurationError {A}.

(** Modelled from the spec: the bit position of a field inside its
    containing bytes, which the absent codec derives from the mask: the
    number of zero bits below the lowest set bit. *)
Fixpoint trailing_zeros (p : positive) : nat :=
  match p with
  | xO q => S (trailing_zeros q)
  | _ => O
  end.

(** Modelled from the spec: the same bit position for a mask given as
    an integer (the absent codec shifts by it); zero for a mask that is
    not positive. *)
Definition field_shift (mask : Z) : Z :=
  match mask with
  | Zpos p => Z.of_nat (trailing_zeros p)
  | _ => 0
  end.

(** Modelled from the spec: the implicit width the absent codec derives
    from the mask, from its lowest to its highest set bit. *)
Definition field_width (mask : Z) : Z :=
  Z.log2 mask + 1 - field_shift mask.

(** Modelled from the spec: the number of bytes that contain a field of
    the absent codec, counted from the byte at its offset. *)
Definition field_bytes (mask : Z) : nat :=
  Z.to_nat (Z.log2 mask / 8 + 1).

(** Modelled from the spec: a field spanning more than one byte is a
    single big-endian integer, most significant byte first (the byte
    conversions of the absent [scsi_utils]). *)
Fixpoint int_to_be (k : nat) (x : Z) : bytes :=
  match k with
  | O => []
  | S k' => Z.land (Z.shiftr x (8 * Z.of_nat k')) 0xff :: int_to_be k' x
  end.

(** Modelled from the spec: the integer that a run of bytes denotes,
    most significant byte first (the reading direction of the absent
    [scsi_utils] conversions). *)
Definition be_to_int (bs : bytes) : Z :=
  fold_left (fun acc b => acc * 256 + b) bs 0.

(** Modelled from the spec: OR-combining bytes into the target bytes of
    the buffer, from offset [off] on (part of the absent Pack). *)
Definition or_at (off : nat) (bs : bytes) (buf : bytes) : bytes :=
  take off buf
  ++ zip_with Z.lor (take (length bs) (drop off buf)) bs
  ++ drop (off + length bs) buf.

(** Modelled from the spec: what the absent Pack does for one field:
    the value is masked to the width of the field, shifted to its bit
    position, and OR-combined into the bytes at its offset. *)
Definition pack_field (f : Z * nat) (value : Z) (buf : bytes) : bytes :=
  let '(mask, off) := f in
  or_at off
        (int_to_be (field_bytes mask)
           (Z.shiftl (Z.land value (Z.ones (field_width mask))) (field_shift mask)))
        buf.

(** Modelled from the spec: what the absent Unpack does for one field:
    the containing bytes are read as one big-endian integer, the bits
    of the mask are extracted and shifted right to position zero. *)
Definition unpack_field (f : Z * nat) (buf : bytes) : Z :=
  let '(mask, off) := f in
  Z.shiftr (Z.land (be_to_int (take (field_bytes mask) (drop off buf))) mask)
           (field_shift mask).

(** Modelled from the spec: the fields the absent codec accepts for a
    buffer of [n] bytes: not of zero width, and inside the buffer
    (anything else is a ConfigurationError). *)
Definition field_in_range (n : nat) (f : Z * nat) : bool :=
  (0 <? f.1) && (f.2 + field_bytes f.1 <=? n)%nat.

(** Modelled from the spec: Pack(layout, values, out_buffer) of the
    absent codec.  Every field of the layout is written, a field without
    a value as zero; a name that the layout does not have, a field of
    zero width and a field outside the buffer are ConfigurationErrors. *)
Definition Pack (layout : gmap string (Z * nat)) (values : gmap string Z)
  (out_buffer : bytes) : result bytes :=
  if bool_decide (map_Forall (fun name _ => is_Some (layout !! name)) values)
     && bool_decide (map_Forall (fun _ f => field_in_range (length out_buffer) f = true) layout)
  then Ok (map_fold (fun name f buf => pack_field f (default 0 (values !! name)) buf)
                    out_buffer layout)
  else ConfigurationError.

(** Modelled from the spec: Unpack(layout, in_buffer) of the absent
    codec: the mapping from each field name of the layout to the integer
    read from the buffer. *)
Definition Unpack (layout : gmap string (Z * nat)) (in_buffer : bytes)
  : result (gmap string Z) :=
  if bool_decide (map_Forall (fun _ f => field_in_range (length in_buffer) f = true) layout)
  then Ok ((fun f => unpack_field f in_buffer) <$> layout)
  else ConfigurationError.

(** Modelled from the spec: a mask of the absent codec that has a
    width: a run of set bits, as wide as [field_width] says, at the
    position [field_shift] says. *)
Definition contiguous (mask : Z) : Prop :=
  mask = Z.shiftl (Z.ones (field_width mask)) (field_shift mask).

(** Modelled from the spec: a well-formed field layout for a buffer of
    [n] bytes, on which the absent codec is total: every mask is a run
    of set bits (so that it has a width, not zero) and every field lies
    inside the buffer. *)
Definition well_formed (n : nat) (layout : gmap string (Z * nat)) : Prop :=
  map_Forall (fun _ f => field_in_range n f = true /\ contiguous f.1) layout.

End FieldCodec.

(** * The POSITION TO ELEMENT command *)

Module PositionToElement.

Definition _cdb_bits : gmap string (Z * nat) :=
  list_to_map [("opcode", (0xff, 0%nat));
               ("medium_transport_address", (0xffff, 2%nat));
               ("destination_address", (0xffff, 4%nat));
               ("invert", (0x01, 8%nat))]%string.

(** The keyword arguments [__init__] hands to [build_cdb]. *)
Definition build_cdb_kwargs (opcode_value xfer dest invert : Z) : gmap string Z :=
  list_to_map [("opcode", opcode_value);
               ("medium_transport_address", xfer);
               ("destination_address", dest);
               ("invert", invert)]%string.

End PositionToElement.

(** * READ CAPACITY(16), the end of the parameter data

    Bytes 14 and 15 as the mock device of
    [tests/test_unmarshall_readcapacity16.py] fills them: LBPME and
    LBPRZ are the two top bits of byte 14, LOWEST ALIGNED LBA the
    fourteen bits below them, across both bytes. *)
Definition readcapacity16_tail : gmap string (Z * nat) :=
  list_to_map [("lbpme", (0x80, 14%nat));
               ("lbprz", (0x40, 14%nat));
               ("lowest_aligned_lba", (0x3fff, 14%nat))]%string.

(** * The context manager protocol of the session *)

Section ContextManager.

Context {W : Type}.
Variable B : backend W.

(** [__enter__] hands back the session itself. *)
Definition __enter__ : M W SCSIDevice := get_self.

(** [__exit__] closes the session, whatever exception information it is
    given ([None] three times when the block ended normally), and
    returns [None]. *)
Definition __exit__ (exc_type exc_val exc_tb : option exn) : M W unit :=
  close B.

End ContextManager.

(** More scripts: a path that has vanished when it is probed; a device
    replaced at its path and reopened without trouble; one whose path
    vanishes between the reopen and the probe that follows it; a
    replaced device for which neither the close nor the reopen works;
    and a transport that raises. *)
Definition path_vanished : script :=
  mkScript (Raise (OSError 2)) (Return tt) (Return 4) (Return 11)
           (Return (GOOD, [], repeat 0 32%nat)).
Definition replugged_repaired : script :=
  mkScript (Return 12) (Return tt) (Return 4) (Return 12)
           (Return (GOOD, repeat 1 96%nat, repeat 0 32%nat)).
Definition vanishes_after_open : script :=
  mkScript (Return 12) (Return tt) (Return 4) (Raise (OSError 2))
           (Return (GOOD, [], repeat 0 32%nat)).
Definition transport_raises : script :=
  mkScript (Return 11) (Return tt) (Return 4) (Return 11)
           (Raise (OSError 5)).

(** * The mock device of the READ CAPACITY(16) test

    [MockReadCapacity16.execute] of
    [tests/test_unmarshall_readcapacity16.py]: it writes the parameter
    data into [cmd.datain] by two slice assignments and four index
    assignments. *)

Module MockReadCapacity16.

(** How the method ends: normally, or with the [IndexError] of an index
    assignment outside the bytearray. *)
Inductive completion : Type := Done | IndexError.

(** [b[lo:hi] = new] for [lo <= hi]: the bounds are clamped to the
    length, so a short bytearray grows. *)
Definition slice_assign (lo hi : nat) (new b : bytes) : bytes :=
  take lo b ++ new ++ drop hi b.

(** [b[i] = v]: outside the bytearray it raises and [b] stays as it is. *)
Definition index_assign (i : nat) (v : Z) (b : bytes) : option bytes :=
  if (i <? length b)%nat then Some (<[i := v]> b) else None.

(** The method, on the contents of [cmd.datain]: how it ends and what
    the bytearray holds then. *)
Definition execute (datain : bytes) : completion * bytes :=
  let b := slice_assign 0 8 [0x00; 0x01; 0x00; 0x00; 0x00; 0x00; 0x00; 0x00] datain in
  let b := slice_assign 8 12 [0x00; 0x00; 0x10; 0x00] b in
  match index_assign 12 0x09 b with
  | None => (IndexError, b)
  | Some b =>
      match index_assign 13 0x88 b with
      | None => (IndexError, b)
      | Some b =>
          match index_assign 14 0xe0 b with
          | None => (IndexError, b)
          | Some b =>
              match index_assign 15 0x01 b with
              | None => (IndexError, b)
              | Some b => (Done, b)
              end
          end
      end
  end.

(** The sixteen bytes the mock device answers with. *)
Definition parameter_data : bytes :=
  [0x00; 0x01; 0x00; 0x00; 0x00; 0x00; 0x00; 0x00;
   0x00; 0x00; 0x10; 0x00; 0x09; 0x88; 0xe0; 0x01].

End MockReadCapacity16.

(** * Properties of the device session *)

Lemma nonempty_true (b : bytes) : nonempty b = true <-> b <> [].
Proof. destruct b; cbn; split; intros; congruence. Qed.

Lemma nonempty_false (b : bytes) : nonempty b = false <-> b = [].
Proof. destruct b; cbn; split; intros; congruence. Qed.

Section SessionProperties.

Context {W : Type}.
Variable B : backend W.
Variable status_enum : SCSI_STATUS.
Variable _has_sgio : bool.

Implicit Types (s : store W) (d : SCSIDevice) (c : SCSICommand).

(** Symbolic execution of a method: unfold the monad, then split on the
    answers of the outside and on the tests of the code. *)
Ltac unfold_methods :=
  unfold execute, __init__, _is_replugged, open, close, NotImplemented_call,
    try_finally, bind, ret, raise, get_self, get_cmd, set_self, set_fd, set_ino,
    get_inode, linux_sgio_open, linux_sgio_close, linux_sgio_execute.

Ltac split_run :=
  repeat (simpl;
    match goal with
    | |- context [os_stat_st_ino B ?f ?w] =>
        destruct (os_stat_st_ino B f w) as [[?|?] ?] eqn:?
    | |- context [sgio_close B ?fd ?w] =>
        destruct (sgio_close B fd w) as [[?|?] ?] eqn:?
    | |- context [sgio_open B ?f ?rw ?w] =>
        destruct (sgio_open B f rw w) as [[?|?] ?] eqn:?
    | |- context [sgio_execute B ?fd ?dir ?c ?o ?i ?sn ?w] =>
        destruct (sgio_execute B fd dir c o i sn w) as [[[[? ?] ?]|?] ?] eqn:?
    | |- context [match (if ?b then _ else _) with _ => _ end] => destruct b eqn:?
    | |- context [(if ?b then _ else _) _] => destruct b eqn:?
    | |- context [if ?b then _ else _] => destruct b eqn:?
    end).

Ltac run_method := unfold_methods; split_run.

(** Which event of a concrete trace a given one is. *)
Ltac pick_event H :=
  simpl in H;
  repeat match type of H with
         | _ \/ _ => destruct H as [H | H]
         | False => contradiction
         | _ = _ => first [discriminate H | injection H as ?; subst]
         end.

(** C10: when the [linux_sgio] module is missing, or the first five
    characters of the device path are not [/dev/], constructing the
    session raises [NotImplementedError]; no call to the transport was
    made and the session holds no handle. *)
Theorem init_without_backend s (device : string) (readwrite detect_replugged : bool) :
  _has_sgio = false \/ String.substring 0 5 device <> "/dev/"%string ->
  let r := __init__ B _has_sgio device readwrite detect_replugged s in
  result r = Raise (NotImplementedError ("No backend implemented for " +:+ device))
  /\ trace r = []
  /\ _fd (self (final r)) = None
  /\ os (final r) = os s.
Proof.
  intros H.
  assert (Hc : _has_sgio && String.eqb (String.substring 0 5 device) "/dev/" = false).
  { destruct H as [-> | H]; [reflexivity |].
    apply andb_false_iff. right. by apply String.eqb_neq. }
  unfold __init__, bind, set_self. rewrite Hc. simpl. auto.
Qed.

(** C1, as the code has it: of the status codes other than
    [CHECK_CONDITION], exactly [SGIO_ERROR] makes [execute] fail with the
    transport error; after any other one [execute] returns normally. *)
Theorem execute_status_outcome s fd dir (cb o i sn : bytes) (st : Z)
  (din' sn' : bytes) :
  In (Execute fd dir cb o i sn (Return (st, din', sn')))
     (trace (execute B status_enum s)) ->
  st <> CHECK_CONDITION status_enum ->
  (st = SGIO_ERROR status_enum ->
     result (execute B status_enum s) = Raise SCSISGIOError)
  /\ (st <> SGIO_ERROR status_enum ->
     result (execute B status_enum s) = Return tt).
Proof.
  intros H Hcc. revert H. run_method; intros H; pick_event H.
  all: repeat match goal with
         | E : (_ =? _) = true |- _ => apply Z.eqb_eq in E
         | E : (_ =? _) = false |- _ => apply Z.eqb_neq in E
         end.
  all: simpl; split; intros; congruence.
Qed.


(** C7: when the transport answers [CHECK_CONDITION], [execute] raises
    [CheckCondition] with the sense bytes the transport left in the
    sense buffer of the command. *)
Theorem check_condition_carries_sense s fd dir (cb o i sn : bytes) (st : Z)
  (din' sn' : bytes) :
  In (Execute fd dir cb o i sn (Return (st, din', sn')))
     (trace (execute B status_enum s)) ->
  st = CHECK_CONDITION status_enum ->
  result (execute B status_enum s) = Raise (CheckCondition sn')
  /\ sense (cmd (final (execute B status_enum s))) = sn'.
Proof.
  intros H Hcc. revert H. run_method; intros H; pick_event H.
  all: repeat match goal with
         | E : (_ =? _) = false |- _ => apply Z.eqb_neq in E
         end.
  all: simpl; first [congruence | split; reflexivity].
Qed.

(** C8: with at most one data buffer in use, whatever [execute] submits
    carries the direction the buffers call for (none, from the device,
    to the device) together with the buffers of the command; and the
    command is submitted unless a call of the replug step raised. *)
Theorem execute_direction s :
  datain (cmd s) = [] \/ dataout (cmd s) = [] ->
  let r := execute B status_enum s in
  (forall fd dir cb o i sn rep,
      In (Execute fd dir cb o i sn rep) (trace r) ->
      dir = spec_direction (cmd s)
      /\ (datain (cmd s) = [] -> dataout (cmd s) = [] -> dir = DXFER_NONE)
      /\ (datain (cmd s) <> [] -> dir = DXFER_FROM_DEV)
      /\ (dataout (cmd s) <> [] -> dir = DXFER_TO_DEV)
      /\ cb = cdb (cmd s) /\ o = dataout (cmd s)
      /\ i = datain (cmd s) /\ sn = sense (cmd s))
  /\ (Forall (fun ev => is_execute ev = false) (trace r) ->
      Exists (fun ev => raised ev = true) (trace r)).
Proof.
  intros Hone r. subst r.
  assert (Hdir : nonempty (datain (cmd s)) && nonempty (dataout (cmd s)) = false).
  { destruct Hone as [-> | ->]; simpl; [reflexivity | apply andb_false_r]. }
  split.
  - intros fd dir cb o i sn rep. run_method; intros H; pick_event H.
    all: repeat match goal with
           | E : nonempty _ = true |- _ => apply nonempty_true in E
           | E : nonempty _ = false |- _ => apply nonempty_false in E
           end.
    all: unfold spec_direction.
    all: destruct (datain (cmd s)), (dataout (cmd s)); simpl in *;
      destruct Hone; repeat split; intros; congruence.
  - run_method; intros H; simpl in H.
    all: repeat match goal with
           | H : Forall _ (_ :: _) |- _ => inversion H; subst; clear H
           end; try discriminate; try congruence.
    all: repeat first [ apply Exists_cons_hd; reflexivity | apply Exists_cons_tl ].
Qed.

(** C6: with replug detection enabled and a probe that differs from the
    recorded identity, the calls of [execute] start with that probe, one
    [close] of the old handle and one [open] of the path, made in the
    state [close] left whatever its outcome; neither is called again,
    and every later call, the submission among them, comes after. *)
Theorem replug_close_then_reopen s (ino : Z) (w : W) :
  _detect_replugged (self s) = true ->
  os_stat_st_ino B (_file_name (self s)) (os s) = (Return ino, w) ->
  Some ino <> _ino (self s) ->
  exists rest,
    trace (execute B status_enum s) =
      Stat (_file_name (self s)) (Return ino)
      :: Close (_fd (self s)) (sgio_close B (_fd (self s)) w).1
      :: Open (_file_name (self s)) (_read_write (self s))
           (sgio_open B (_file_name (self s)) (_read_write (self s))
                      (sgio_close B (_fd (self s)) w).2).1
      :: rest
    /\ Forall (fun ev => is_close ev = false /\ is_open ev = false) rest
    /\ length (List.filter is_close (trace (execute B status_enum s))) = 1%nat
    /\ length (List.filter is_open (trace (execute B status_enum s))) = 1%nat.
Proof.
  intros Hd Hs Hne.
  assert (Hb : negb (bool_decide (Some ino = _ino (self s))) = true).
  { apply negb_true_iff, bool_decide_eq_false. exact Hne. }
  unfold_methods. simpl. rewrite Hd. simpl. rewrite Hs. simpl. rewrite Hb.
  split_run.
  all: eexists; split; [reflexivity |].
  all: split; [repeat constructor | split; reflexivity].
Qed.

(** C2, as the code has it: when the stale handle cannot be closed and
    the reopen succeeds, the session takes the new handle and identity,
    and the failure of [close] is then raised to the caller; the command
    is not submitted. *)
Theorem close_failure_raised_after_reopen s (ino : Z) (w : W) (e : exn)
  (w1 : W) (fd : Z) (w2 : W) (ino' : Z) (w3 : W) :
  _detect_replugged (self s) = true ->
  os_stat_st_ino B (_file_name (self s)) (os s) = (Return ino, w) ->
  Some ino <> _ino (self s) ->
  sgio_close B (_fd (self s)) w = (Raise e, w1) ->
  sgio_open B (_file_name (self s)) (_read_write (self s)) w1 = (Return fd, w2) ->
  os_stat_st_ino B (_file_name (self s)) w2 = (Return ino', w3) ->
  let r := execute B status_enum s in
  result r = Raise e
  /\ trace r = [Stat (_file_name (self s)) (Return ino);
                Close (_fd (self s)) (Raise e);
                Open (_file_name (self s)) (_read_write (self s)) (Return fd);
                Stat (_file_name (self s)) (Return ino')]
  /\ final r = mkStore (mkDevice (_file_name (self s)) (_read_write (self s))
                                 (Some fd) (Some ino') true)
                       (cmd s) w3.
Proof.
  intros Hd Hs Hne Hc Ho Hs'.
  assert (Hb : negb (bool_decide (Some ino = _ino (self s))) = true).
  { apply negb_true_iff, bool_decide_eq_false. exact Hne. }
  unfold_methods. simpl. rewrite Hd. simpl. rewrite Hs. simpl. rewrite Hb.
  simpl. rewrite Hc. simpl. rewrite Ho. simpl. rewrite Hs'. simpl.
  rewrite Hd. auto.
Qed.


End SessionProperties.

(** ** The session at concrete inputs *)

Lemma init_without_backend_witness :
  let r := __init__ (scripted answers_busy) true "/tmp/disk.img" false true
                    (session true test_unit_ready) in
  String.substring 0 5 "/tmp/disk.img" <> "/dev/"%string
  /\ result r = Raise (NotImplementedError "No backend implemented for /tmp/disk.img")
  /\ trace r = [].
Proof.
  assert (H : String.substring 0 5 "/tmp/disk.img" <> "/dev/"%string)
    by (vm_compute; discriminate).
  split; [exact H |].
  pose proof (init_without_backend (scripted answers_busy) true
                (session true test_unit_ready) "/tmp/disk.img" false true
                (or_intror H)) as P.
  split; [exact (proj1 P) | exact (proj1 (proj2 P))].
Defined.

Lemma execute_status_outcome_witness :
  result (execute (scripted answers_busy) sam_status
                  (session false test_unit_ready)) = Return tt.
Proof.
  apply (execute_status_outcome (scripted answers_busy) sam_status
           (session false test_unit_ready) (Some 3) DXFER_NONE
           [0; 0; 0; 0; 0; 0] [] [] (repeat 0 32%nat) BUSY [] (repeat 0 32%nat)).
  - vm_compute. left. reflexivity.
  - vm_compute. discriminate.
  - vm_compute. discriminate.
Defined.

Lemma check_condition_carries_sense_witness :
  let r := execute (scripted answers_check_condition) sam_status
                   (session true inquiry) in
  result r = Raise (CheckCondition not_ready_sense)
  /\ sense (cmd (final r)) = not_ready_sense.
Proof.
  apply (check_condition_carries_sense (scripted answers_check_condition)
           sam_status (session true inquiry) (Some 3) DXFER_FROM_DEV
           [0x12; 0; 0; 0; 96; 0] [] (repeat 0 96%nat) (repeat 0 32%nat)
           0x02 [] not_ready_sense).
  - vm_compute. right. left. reflexivity.
  - reflexivity.
Defined.

Lemma execute_direction_witness :
  let submitted :=
    Execute (Some 3) DXFER_FROM_DEV [0x12; 0; 0; 0; 96; 0] [] (repeat 0 96%nat)
            (repeat 0 32%nat) (Return (BUSY, [], repeat 0 32%nat)) in
  dataout inquiry = []
  /\ In submitted
        (trace (execute (scripted answers_busy) sam_status (session true inquiry)))
  /\ DXFER_FROM_DEV = spec_direction inquiry.
Proof.
  pose proof (execute_direction (scripted answers_busy) sam_status
                (session true inquiry) (or_intror eq_refl)) as [P _].
  assert (H : In (Execute (Some 3) DXFER_FROM_DEV [0x12; 0; 0; 0; 96; 0] []
                          (repeat 0 96%nat) (repeat 0 32%nat)
                          (Return (BUSY, [], repeat 0 32%nat)))
                 (trace (execute (scripted answers_busy) sam_status
                                 (session true inquiry)))).
  { vm_compute. right. left. reflexivity. }
  split; [reflexivity |]. split; [exact H |].
  exact (proj1 (P _ _ _ _ _ _ _ H)).
Defined.

Lemma replug_close_then_reopen_witness :
  exists rest,
    trace (execute (scripted replugged_close_fails) sam_status
                   (session true test_unit_ready)) =
      Stat "/dev/sg0" (Return 12)
      :: Close (Some 3) (Raise (OSError 9))
      :: Open "/dev/sg0" false (Return 4)
      :: rest
    /\ Forall (fun ev => is_close ev = false /\ is_open ev = false) rest.
Proof.
  destruct (replug_close_then_reopen (scripted replugged_close_fails) sam_status
              (session true test_unit_ready) 12 false)
    as (rest & Ht & Hf & _).
  - reflexivity.
  - reflexivity.
  - vm_compute. discriminate.
  - exists rest. split; [exact Ht | exact Hf].
Defined.

Lemma close_failure_raised_after_reopen_witness :
  let r := execute (scripted replugged_close_fails) sam_status
                   (session true test_unit_ready) in
  result r = Raise (OSError 9)
  /\ _fd (self (final r)) = Some 4
  /\ _ino (self (final r)) = Some 12.
Proof.
  pose proof (close_failure_raised_after_reopen (scripted replugged_close_fails)
                sam_status (session true test_unit_ready)
                12 false (OSError 9) false 4 true 12 true) as P.
  destruct P as (Pr & _ & Pf).
  - reflexivity.
  - reflexivity.
  - vm_compute. discriminate.
  - reflexivity.
  - reflexivity.
  - reflexivity.
  - split; [exact Pr |]. rewrite Pf. split; reflexivity.
Defined.


(** C1 as stated fails: BUSY is neither the success code nor the check
    condition code, the transport returned it, and [execute] returned
    normally. *)
Lemma busy_status_accepted :
  let r := execute (scripted answers_busy) sam_status
                   (session false test_unit_ready) in
  spec_status_mapper GOOD sam_status BUSY = TransportFailure
  /\ trace r = [Execute (Some 3) DXFER_NONE [0; 0; 0; 0; 0; 0] [] []
                        (repeat 0 32%nat) (Return (BUSY, [], repeat 0 32%nat))]
  /\ result r = Return tt.
Proof. vm_compute. repeat split. Qed.

(** C2 as stated fails: the device was replaced, [close] raised, the
    reopen succeeded, and [execute] raised the failure of [close]
    without submitting the command. *)
Lemma close_failure_reaches_caller :
  let r := execute (scripted replugged_close_fails) sam_status
                   (session true test_unit_ready) in
  trace r = [Stat "/dev/sg0" (Return 12);
             Close (Some 3) (Raise (OSError 9));
             Open "/dev/sg0" false (Return 4);
             Stat "/dev/sg0" (Return 12)]
  /\ result r = Raise (OSError 9).
Proof. vm_compute. repeat split. Qed.

(** Both buffers in use on a replaced device whose path cannot be
    opened again: the replug step comes first, and what [execute]
    raises is the failure of the reopen. *)
Lemma bidirectional_fails_in_repair :
  let r := execute (scripted replugged_open_fails) sam_status
                   (session true bidirectional) in
  datain bidirectional <> [] /\ dataout bidirectional <> []
  /\ trace r = [Stat "/dev/sg0" (Return 12);
                Close (Some 3) (Return tt);
                Open "/dev/sg0" false (Raise (OSError 19))]
  /\ result r = Raise (OSError 19).
Proof. vm_compute. repeat split; discriminate. Qed.

(** C3, where the code departs from it: a command with both buffers in
    use is refused before any call to the transport, as the claim says,
    but what line 138 raises is the [TypeError] of calling the constant
    [NotImplemented], not the [NotImplementedError] that [__init__]
    raises for what is not supported. *)
Example bidirectional_raises_TypeError :
  let r := execute (scripted answers_busy) sam_status
                   (session false bidirectional) in
  datain bidirectional <> [] /\ dataout bidirectional <> []
  /\ result r = Raise (TypeError "'NotImplementedType' object is not callable")
  /\ (forall msg, result r <> Raise (NotImplementedError msg))
  /\ trace r = [].
Proof. vm_compute. repeat split; intros; discriminate. Qed.

(** * Properties of the field codec *)

Section CodecProperties.

Import FieldCodec.

Implicit Types (layout : gmap string (Z * nat)) (buf bs : bytes) (k n off : nat).

Lemma length_int_to_be k x : length (int_to_be k x) = k.
Proof. induction k as [|k IH]; simpl; [reflexivity | by rewrite IH]. Qed.

Lemma int_to_be_zero k : int_to_be k 0 = replicate k 0.
Proof.
  induction k as [|k IH]; simpl; [reflexivity |].
  rewrite Z.shiftr_0_l, Z.land_0_l, IH. reflexivity.
Qed.

Lemma fold_be_int_to_be k x acc :
  fold_left (fun a b => a * 256 + b) (int_to_be k x) acc
  = acc * 2 ^ (8 * Z.of_nat k) + x mod 2 ^ (8 * Z.of_nat k).
Proof.
  revert acc. induction k as [|k IH]; intros acc; simpl int_to_be; simpl fold_left.
  - rewrite Z.mod_1_r. simpl. lia.
  - rewrite IH.
    change 255 with (Z.ones 8). rewrite Z.land_ones by lia.
    rewrite Z.shiftr_div_pow2 by lia.
    replace (8 * Z.of_nat (S k)) with (8 * Z.of_nat k + 8) by lia.
    rewrite Z.pow_add_r by lia.
    assert (Hp : 0 < 2 ^ (8 * Z.of_nat k)) by (apply Z.pow_pos_nonneg; lia).
    rewrite (Z.rem_mul_r x (2 ^ (8 * Z.of_nat k)) (2 ^ 8)) by lia.
    lia.
Qed.

Lemma be_to_int_int_to_be k x :
  be_to_int (int_to_be k x) = x mod 2 ^ (8 * Z.of_nat k).
Proof. unfold be_to_int. rewrite fold_be_int_to_be. lia. Qed.

Lemma zip_lor_zeros_l bs : zip_with Z.lor (replicate (length bs) 0) bs = bs.
Proof. induction bs as [|b bs IH]; simpl; [reflexivity | by rewrite IH]. Qed.

Lemma zip_lor_zeros_r bs k :
  (length bs <= k)%nat -> zip_with Z.lor bs (replicate k 0) = bs.
Proof.
  revert k. induction bs as [|b bs IH]; intros k Hk; [reflexivity |].
  destruct k as [|k]; simpl in *; [lia |].
  rewrite Z.lor_0_r, IH by lia. reflexivity.
Qed.

Lemma length_or_at off bs buf :
  (off + length bs <= length buf)%nat -> length (or_at off bs buf) = length buf.
Proof.
  intros H. unfold or_at.
  rewrite !length_app, length_zip_with, !length_take, !length_drop. lia.
Qed.

(** Reading back the bytes OR-combined into a zero buffer. *)
Lemma read_or_at_zeros off bs n :
  (off + length bs <= n)%nat ->
  take (length bs) (drop off (or_at off bs (replicate n 0))) = bs.
Proof.
  intros H. unfold or_at.
  rewrite drop_app_length' by (rewrite length_take, length_replicate; lia).
  rewrite drop_replicate, take_replicate.
  replace (length bs `min` (n - off))%nat with (length bs) by lia.
  rewrite zip_lor_zeros_l.
  rewrite take_app_length' by reflexivity. reflexivity.
Qed.

(** A field given the value zero leaves the buffer as it is. *)
Lemma pack_field_zero (f : Z * nat) buf : pack_field f 0 buf = buf.
Proof.
  destruct f as [mask off]. unfold pack_field, or_at.
  rewrite Z.land_0_l, Z.shiftl_0_l, int_to_be_zero, length_replicate.
  rewrite zip_lor_zeros_r by (rewrite length_take; lia).
  rewrite <- drop_drop, (take_drop (field_bytes mask)), take_drop. reflexivity.
Qed.

Lemma field_shift_nonneg mask : 0 <= field_shift mask.
Proof. destruct mask; simpl; lia. Qed.

Lemma field_shift_le_log2 mask : 0 < mask -> field_shift mask <= Z.log2 mask.
Proof.
  destruct mask as [|p|p]; try lia. intros _. simpl field_shift.
  induction p as [p IH|p IH|]; simpl trailing_zeros.
  - apply Z.log2_nonneg.
  - change (Z.pos p~0) with (2 * Z.pos p). rewrite Z.log2_double by lia. lia.
  - simpl. lia.
Qed.

Lemma field_width_pos mask : 0 < mask -> 0 < field_width mask.
Proof. intros H. unfold field_width. pose proof (field_shift_le_log2 mask H). lia. Qed.

(** The bytes of a field are enough for every bit up to the highest one
    of its mask. *)
Lemma field_bytes_bits mask :
  0 < mask -> Z.log2 mask + 1 <= 8 * Z.of_nat (field_bytes mask).
Proof.
  intros H. unfold field_bytes.
  pose proof (Z.log2_nonneg mask).
  rewrite Z2Nat.id by (pose proof (Z.div_pos (Z.log2 mask) 8); lia).
  pose proof (Z.mod_pos_bound (Z.log2 mask) 8).
  pose proof (Z.div_mod (Z.log2 mask) 8). lia.
Qed.

Lemma shiftr_land_shiftl w s v :
  0 <= s ->
  Z.shiftr (Z.land (Z.shiftl (Z.land v (Z.ones w)) s) (Z.shiftl (Z.ones w) s)) s
  = Z.land v (Z.ones w).
Proof.
  intros Hs. rewrite <- Z.shiftl_land.
  rewrite Z.shiftr_shiftl_l by lia. rewrite Z.sub_diag, Z.shiftl_0_r.
  rewrite <- Z.land_assoc, Z.land_diag. reflexivity.
Qed.

(** The bytes of a field after its value was packed into a zero
    buffer, read as one big-endian integer: the low-order bits of the
    value, as many as the field is wide, at the position of the field. *)
Lemma region_pack_field mask off n v :
  field_in_range n (mask, off) = true ->
  be_to_int (take (field_bytes mask)
                  (drop off (pack_field (mask, off) v (replicate n 0))))
  = Z.shiftl (Z.land v (Z.ones (field_width mask))) (field_shift mask).
Proof.
  unfold field_in_range. simpl. intros Hr.
  apply andb_true_iff in Hr as [Hpos Hlen].
  apply Z.ltb_lt in Hpos. apply Nat.leb_le in Hlen.
  pose proof (field_shift_nonneg mask) as Hs.
  pose proof (field_width_pos mask Hpos) as Hw.
  unfold pack_field.
  set (y := Z.land v (Z.ones (field_width mask))).
  assert (Hy : 0 <= y < 2 ^ field_width mask).
  { unfold y. rewrite Z.land_ones by lia. apply Z.mod_pos_bound.
    apply Z.pow_pos_nonneg; lia. }
  set (x := Z.shiftl y (field_shift mask)).
  pose proof (length_int_to_be (field_bytes mask) x) as Hk.
  rewrite <- Hk at 1. rewrite read_or_at_zeros by (rewrite Hk; lia).
  rewrite be_to_int_int_to_be.
  apply Z.mod_small.
  unfold x. rewrite Z.shiftl_mul_pow2 by lia. split.
  - apply Z.mul_nonneg_nonneg; [lia | apply Z.pow_nonneg; lia].
  - apply Z.lt_le_trans with (2 ^ field_width mask * 2 ^ field_shift mask).
    + apply Z.mul_lt_mono_pos_r; [apply Z.pow_pos_nonneg; lia | lia].
    + rewrite <- Z.pow_add_r by lia. apply Z.pow_le_mono_r; [lia |].
      pose proof (field_bytes_bits mask Hpos). unfold field_width. lia.
Qed.

(** On a mask that is a run of bits, masking to the width and shifting
    keeps exactly the bits of the shifted value that the mask selects. *)
Lemma masked_to_width mask v :
  contiguous mask ->
  Z.shiftl (Z.land v (Z.ones (field_width mask))) (field_shift mask)
  = Z.land (Z.shiftl v (field_shift mask)) mask.
Proof.
  intros Hc. rewrite Z.shiftl_land. unfold contiguous in Hc.
  rewrite <- Hc. reflexivity.
Qed.

Lemma unpack_pack_field mask off n v :
  field_in_range n (mask, off) = true -> contiguous mask ->
  unpack_field (mask, off) (pack_field (mask, off) v (replicate n 0))
  = Z.land v (Z.ones (field_width mask)).
Proof.
  intros Hr Hc. unfold unpack_field. rewrite region_pack_field by exact Hr.
  replace (Z.land (Z.shiftl (Z.land v (Z.ones (field_width mask))) (field_shift mask)) mask)
    with (Z.land (Z.shiftl (Z.land v (Z.ones (field_width mask))) (field_shift mask))
                 (Z.shiftl (Z.ones (field_width mask)) (field_shift mask)))
    by (unfold contiguous in Hc; rewrite <- Hc; reflexivity).
  apply shiftr_land_shiftl, field_shift_nonneg.
Qed.

Lemma length_pack_field (f : Z * nat) v buf :
  field_in_range (length buf) f = true -> length (pack_field f v buf) = length buf.
Proof.
  destruct f as [mask off]. unfold field_in_range, pack_field. simpl. intros Hr.
  apply andb_true_iff in Hr as [_ Hlen]. apply Nat.leb_le in Hlen.
  apply length_or_at. rewrite length_int_to_be. exact Hlen.
Qed.

(** Packing a single value: the other fields are written as zero, so
    the buffer is the zero buffer with that one field packed into it. *)
Lemma Pack_single layout n name (f : Z * nat) v :
  map_Forall (fun _ f => field_in_range n f = true) layout ->
  layout !! name = Some f ->
  Pack layout {[name := v]} (replicate n 0)
  = Ok (pack_field f v (replicate n 0)).
Proof.
  intros Hall Hf. unfold Pack. rewrite length_replicate.
  rewrite !bool_decide_eq_true_2; simpl.
  - f_equal.
    assert (H : match layout !! name with
                | Some f' => map_fold (fun name' f' buf =>
                               pack_field f' (default 0 (({[name := v]} : gmap string Z) !! name')) buf)
                               (replicate n 0) layout
                             = pack_field f' v (replicate n 0)
                | None => map_fold (fun name' f' buf =>
                               pack_field f' (default 0 (({[name := v]} : gmap string Z) !! name')) buf)
                               (replicate n 0) layout
                          = replicate n 0
                end).
    { apply (map_fold_weak_ind (fun r m =>
               match m !! name with
               | Some f' => r = pack_field f' v (replicate n 0)
               | None => r = replicate n 0
               end)).
      - rewrite lookup_empty. reflexivity.
      - intros i x m r Hi IH. destruct (decide (i = name)) as [-> | Hne].
        + rewrite lookup_insert_eq, lookup_singleton_eq. simpl.
          rewrite Hi in IH. by rewrite IH.
        + rewrite lookup_insert_ne, lookup_singleton_ne by done. simpl.
          rewrite pack_field_zero. exact IH. }
    rewrite Hf in H. exact H.
  - exact Hall.
  - intros i x Hi. apply lookup_singleton_Some in Hi as [<- _]. eauto.
Qed.

Lemma well_formed_in_range n layout :
  well_formed n layout -> map_Forall (fun _ f => field_in_range n f = true) layout.
Proof. intros H i x Hi. exact (proj1 (H i x Hi)). Qed.

(** C4: on a well-formed layout, a value that fits the width of a field
    is read back exactly from the buffer it was packed into, whichever
    bytes, one or several, the field occupies. *)
Theorem unpack_pack_roundtrip layout n name mask off v :
  well_formed n layout ->
  layout !! name = Some (mask, off) ->
  0 <= v < 2 ^ field_width mask ->
  exists buf values,
    Pack layout {[name := v]} (replicate n 0) = Ok buf
    /\ Unpack layout buf = Ok values
    /\ values !! name = Some v.
Proof.
  intros Hwf Hf Hv.
  destruct (Hwf name (mask, off) Hf) as [Hr Hc]. simpl in Hc.
  pose proof (well_formed_in_range n layout Hwf) as Hall.
  exists (pack_field (mask, off) v (replicate n 0)).
  exists ((fun f => unpack_field f (pack_field (mask, off) v (replicate n 0))) <$> layout).
  split; [by apply Pack_single |]. split.
  - unfold Unpack. rewrite length_pack_field by (by rewrite length_replicate).
    rewrite length_replicate. by rewrite bool_decide_eq_true_2.
  - rewrite lookup_fmap, Hf. cbn [fmap option_fmap option_map]. f_equal.
    rewrite unpack_pack_field by done.
    assert (0 < field_width mask).
    { apply field_width_pos. unfold field_in_range in Hr. simpl in Hr.
      apply andb_true_iff in Hr as [Hpos _]. by apply Z.ltb_lt. }
    rewrite Z.land_ones by lia. apply Z.mod_small. exact Hv.
Qed.

(** C9: a value wider than its field is packed without error, and only
    its low-order bits, those the mask selects, are stored: the bytes of
    the field hold the shifted value cut by the mask, and the field
    reads the value modulo two to its width (0x1FF in an eight-bit field
    gives 0xFF). *)
Theorem pack_truncates layout n name mask off v :
  well_formed n layout ->
  layout !! name = Some (mask, off) ->
  2 ^ field_width mask <= v ->
  exists buf values,
    Pack layout {[name := v]} (replicate n 0) = Ok buf
    /\ be_to_int (take (field_bytes mask) (drop off buf))
       = Z.land (Z.shiftl v (field_shift mask)) mask
    /\ Unpack layout buf = Ok values
    /\ values !! name = Some (v mod 2 ^ field_width mask).
Proof.
  intros Hwf Hf _.
  destruct (Hwf name (mask, off) Hf) as [Hr Hc]. simpl in Hc.
  pose proof (well_formed_in_range n layout Hwf) as Hall.
  exists (pack_field (mask, off) v (replicate n 0)).
  exists ((fun f => unpack_field f (pack_field (mask, off) v (replicate n 0))) <$> layout).
  split; [by apply Pack_single |]. split; [| split].
  - rewrite region_pack_field by done. by apply masked_to_width.
  - unfold Unpack. rewrite length_pack_field by (by rewrite length_replicate).
    rewrite length_replicate. by rewrite bool_decide_eq_true_2.
  - rewrite lookup_fmap, Hf. cbn [fmap option_fmap option_map]. f_equal.
    rewrite unpack_pack_field by done.
    assert (0 < field_width mask).
    { apply field_width_pos. unfold field_in_range in Hr. simpl in Hr.
      apply andb_true_iff in Hr as [Hpos _]. by apply Z.ltb_lt. }
    apply Z.land_ones. lia.
Qed.

(** C5: the command block of POSITION TO ELEMENT for opcode 2Bh,
    transport 0010h, destination 0020h and invert set, packed into nine
    zero bytes, and the values read back from it. *)
Theorem position_to_element_cdb :
  Pack PositionToElement._cdb_bits
       (PositionToElement.build_cdb_kwargs 0x2B 0x0010 0x0020 1)
       (replicate 9 0)
  = Ok [0x2B; 0x00; 0x00; 0x10; 0x00; 0x20; 0x00; 0x00; 0x01]
  /\ Unpack PositionToElement._cdb_bits
            [0x2B; 0x00; 0x00; 0x10; 0x00; 0x20; 0x00; 0x00; 0x01]
     = Ok (PositionToElement.build_cdb_kwargs 0x2B 0x0010 0x0020 1).
Proof.
  split.
  - vm_cast_no_check
      (@eq_refl _ (Ok [0x2B; 0x00; 0x00; 0x10; 0x00; 0x20; 0x00; 0x00; 0x01])).
  - vm_cast_no_check
      (@eq_refl _ (Ok (PositionToElement.build_cdb_kwargs 0x2B 0x0010 0x0020 1))).
Qed.

End CodecProperties.

(** ** The codec at concrete inputs *)

Section CodecExamples.

Import FieldCodec.

Ltac well_formed_layout :=
  unfold well_formed; simpl;
  repeat (apply map_Forall_insert_2;
          [split; [reflexivity | unfold contiguous; vm_compute; reflexivity] |]);
  apply map_Forall_empty.

Lemma cdb_bits_well_formed : well_formed 9 PositionToElement._cdb_bits.
Proof. unfold PositionToElement._cdb_bits. well_formed_layout. Qed.

Lemma readcapacity16_tail_well_formed : well_formed 16 readcapacity16_tail.
Proof. unfold readcapacity16_tail. well_formed_layout. Qed.

Lemma unpack_pack_roundtrip_witness :
  exists buf values,
    Pack readcapacity16_tail {["lowest_aligned_lba"%string := 8193]} (replicate 16 0)
    = Ok buf
    /\ Unpack readcapacity16_tail buf = Ok values
    /\ values !! "lowest_aligned_lba"%string = Some 8193.
Proof.
  apply (unpack_pack_roundtrip readcapacity16_tail 16 "lowest_aligned_lba"
           0x3fff 14 8193).
  - exact readcapacity16_tail_well_formed.
  - reflexivity.
  - vm_compute. split; congruence.
Defined.

Lemma pack_truncates_witness :
  exists buf values,
    Pack PositionToElement._cdb_bits {["opcode"%string := 0x1FF]} (replicate 9 0)
    = Ok buf
    /\ be_to_int (take 1 (drop 0 buf)) = 0xFF
    /\ Unpack PositionToElement._cdb_bits buf = Ok values
    /\ values !! "opcode"%string = Some 0xFF.
Proof.
  apply (pack_truncates PositionToElement._cdb_bits 9 "opcode" 0xff 0 0x1FF).
  - exact cdb_bits_well_formed.
  - reflexivity.
  - vm_compute. congruence.
Defined.

(** An eight-bit field packed with 0x1FF: the byte is 0xFF. *)
Example pack_0x1FF_into_eight_bits :
  Pack {["opcode"%string := (0xff, 0%nat)]} {["opcode"%string := 0x1FF]} [0]
  = Ok [0xFF].
Proof. vm_compute. reflexivity. Qed.

(** The bytes of the test: LOWEST ALIGNED LBA 8193 straddles bytes 14
    and 15. *)
Example pack_lowest_aligned_lba :
  Pack readcapacity16_tail {["lowest_aligned_lba"%string := 8193]} (replicate 16 0)
  = Ok (replicate 14 0 ++ [0x20; 0x01]).
Proof. vm_compute. reflexivity. Qed.

End CodecExamples.

(** * Further behaviour of the device session *)

Section SessionBehaviour.

Context {W : Type}.
Variable B : backend W.
Variable status_enum : SCSI_STATUS.

Implicit Types (s : store W).

Ltac unfold_session :=
  unfold __exit__, __enter__, execute, __init__, _is_replugged, open, close,
    NotImplemented_call, try_finally, bind, ret, raise, get_self, get_cmd,
    set_self, set_fd, set_ino, get_inode, linux_sgio_open, linux_sgio_close,
    linux_sgio_execute.

Ltac split_calls :=
  repeat (simpl;
    match goal with
    | |- context [os_stat_st_ino B ?f ?w] =>
        destruct (os_stat_st_ino B f w) as [[?|?] ?] eqn:?
    | |- context [sgio_close B ?fd ?w] =>
        destruct (sgio_close B fd w) as [[?|?] ?] eqn:?
    | |- context [sgio_open B ?f ?rw ?w] =>
        destruct (sgio_open B f rw w) as [[?|?] ?] eqn:?
    | |- context [sgio_execute B ?fd ?dir ?c ?o ?i ?sn ?w] =>
        destruct (sgio_execute B fd dir c o i sn w) as [[[[? ?] ?]|?] ?] eqn:?
    | |- context [match (if ?b then _ else _) with _ => _ end] => destruct b eqn:?
    | |- context [(if ?b then _ else _) _] => destruct b eqn:?
    | |- context [if ?b then _ else _] => destruct b eqn:?
    end).

Ltac run_session := unfold_session; split_calls.

Ltac find_event H :=
  simpl in H;
  repeat match type of H with
         | _ \/ _ => destruct H as [H | H]
         | False => contradiction
         | _ = _ => first [discriminate H | injection H as ?; subst]
         end.

(** What the tests of the buffers say about them. *)
Ltac buffers :=
  simpl;
  repeat match goal with
         | E : _ && _ = true |- _ => apply andb_true_iff in E as [? ?]
         | E : _ && _ = false |- _ => apply andb_false_iff in E as [? | ?]
         | E : nonempty _ = true |- _ => apply nonempty_true in E
         | E : nonempty _ = false |- _ => apply nonempty_false in E
         end.

Lemma probe_differs (ino : Z) (o : option Z) :
  Some ino <> o -> negb (bool_decide (Some ino = o)) = true.
Proof. intros H. apply negb_true_iff, bool_decide_eq_false. exact H. Qed.

Lemma probe_agrees (ino : Z) (o : option Z) :
  Some ino = o -> negb (bool_decide (Some ino = o)) = false.
Proof. intros H. apply negb_false_iff, bool_decide_eq_true. exact H. Qed.

(** X1: a successful [open] records the handle and the inode it read,
    and right after it the session is not seen as replugged exactly
    when the path still has that inode. *)
Theorem open_then_probe s (fd : Z) (w1 : W) (ino : Z) (w2 : W) (ino' : Z) (w3 : W) :
  sgio_open B (_file_name (self s)) (_read_write (self s)) (os s) = (Return fd, w1) ->
  os_stat_st_ino B (_file_name (self s)) w1 = (Return ino, w2) ->
  os_stat_st_ino B (_file_name (self s)) w2 = (Return ino', w3) ->
  let r := open B s in
  result r = Return tt
  /\ _fd (self (final r)) = Some fd
  /\ _ino (self (final r)) = Some ino
  /\ trace r = [Open (_file_name (self s)) (_read_write (self s)) (Return fd);
                Stat (_file_name (self s)) (Return ino)]
  /\ result (_is_replugged B (final r)) = Return (negb (ino' =? ino)).
Proof.
  intros Ho Hs Hs'. unfold_session. simpl. rewrite Ho. simpl. rewrite Hs. simpl.
  rewrite Hs'. simpl. repeat split. do 2 f_equal.
  destruct (Z.eqb_spec ino' ino) as [-> | Hne].
  - by rewrite bool_decide_eq_true_2.
  - rewrite bool_decide_eq_false_2; [reflexivity | congruence].
Qed.

(** X2: when [linux_sgio.open] raises, [open] raises the same, the
    session keeps the handle and identity it had, and the path is not
    probed. *)
Theorem open_failure_keeps_session s (e : exn) (w1 : W) :
  sgio_open B (_file_name (self s)) (_read_write (self s)) (os s) = (Raise e, w1) ->
  let r := open B s in
  result r = Raise e
  /\ self (final r) = self s
  /\ trace r = [Open (_file_name (self s)) (_read_write (self s)) (Raise e)].
Proof.
  intros Ho. unfold_session. simpl. rewrite Ho. simpl. repeat split.
Qed.

(** X3: when the probe that follows a successful [linux_sgio.open]
    raises, [open] raises the same with the new handle already stored
    and the old identity still recorded. *)
Theorem open_probe_failure_keeps_new_handle s (fd : Z) (w1 : W) (e : exn) (w2 : W) :
  sgio_open B (_file_name (self s)) (_read_write (self s)) (os s) = (Return fd, w1) ->
  os_stat_st_ino B (_file_name (self s)) w1 = (Raise e, w2) ->
  let r := open B s in
  result r = Raise e
  /\ _fd (self (final r)) = Some fd
  /\ _ino (self (final r)) = _ino (self s).
Proof.
  intros Ho Hs. unfold_session. simpl. rewrite Ho. simpl. rewrite Hs. simpl.
  repeat split.
Qed.



(** X5: with the backend present and a path under [/dev/], [__init__]
    opens the path with the access mode asked for; when that works the
    session holds the path, the mode, the detection flag, the handle
    and the inode read after the open. *)
Theorem init_opens_device s (device : string) (readwrite detect_replugged : bool)
  (fd : Z) (w1 : W) (ino : Z) (w2 : W) :
  String.substring 0 5 device = "/dev/"%string ->
  sgio_open B device readwrite (os s) = (Return fd, w1) ->
  os_stat_st_ino B device w1 = (Return ino, w2) ->
  let r := __init__ B true device readwrite detect_replugged s in
  result r = Return tt
  /\ self (final r) = mkDevice device readwrite (Some fd) (Some ino) detect_replugged
  /\ trace r = [Open device readwrite (Return fd); Stat device (Return ino)].
Proof.
  intros Hp Ho Hs. unfold_session. simpl. rewrite Hp. simpl.
  rewrite Ho. simpl. rewrite Hs. simpl. repeat split.
Qed.

(** X6: on such a path, a failure of [linux_sgio.open] is what
    [__init__] raises (not [NotImplementedError]), after that one call. *)
Theorem init_open_failure s (device : string) (readwrite detect_replugged : bool)
  (e : exn) (w1 : W) :
  String.substring 0 5 device = "/dev/"%string ->
  sgio_open B device readwrite (os s) = (Raise e, w1) ->
  let r := __init__ B true device readwrite detect_replugged s in
  result r = Raise e
  /\ trace r = [Open device readwrite (Raise e)].
Proof.
  intros Hp Ho. unfold_session. simpl. rewrite Hp. simpl.
  rewrite Ho. simpl. repeat split.
Qed.

(** X7: with replug detection off, [execute] never probes, closes or
    opens: it makes no call at all when both buffers are in use, and
    otherwise the single submission on the recorded handle; the
    session is left as it was. *)
Theorem execute_without_detection s :
  _detect_replugged (self s) = false ->
  let r := execute B status_enum s in
  self (final r) = self s
  /\ (datain (cmd s) <> [] /\ dataout (cmd s) <> [] -> trace r = [])
  /\ (datain (cmd s) = [] \/ dataout (cmd s) = [] ->
      exists dir rep,
        trace r = [Execute (_fd (self s)) dir (cdb (cmd s)) (dataout (cmd s))
                           (datain (cmd s)) (sense (cmd s)) rep]).
Proof.
  intros Hd. unfold_session. simpl. rewrite Hd. split_calls.
  all: buffers.
  all: split; [first [reflexivity | by destruct (self s)] |].
  all: split; [intros [? ?]; first [reflexivity | congruence] |].
  all: intros [? | ?]; first [congruence | eauto].
Qed.

(** X8: with detection on and a probe that agrees with the recorded
    identity, [execute] neither closes nor opens, leaves the session as
    it was, and, unless both buffers are in use, submits on the
    recorded handle right after the probe. *)
Theorem execute_same_identity s (ino : Z) (w : W) :
  _detect_replugged (self s) = true ->
  os_stat_st_ino B (_file_name (self s)) (os s) = (Return ino, w) ->
  _ino (self s) = Some ino ->
  let r := execute B status_enum s in
  self (final r) = self s
  /\ (datain (cmd s) <> [] /\ dataout (cmd s) <> [] ->
      trace r = [Stat (_file_name (self s)) (Return ino)])
  /\ (datain (cmd s) = [] \/ dataout (cmd s) = [] ->
      exists dir rep,
        trace r = [Stat (_file_name (self s)) (Return ino);
                   Execute (_fd (self s)) dir (cdb (cmd s)) (dataout (cmd s))
                           (datain (cmd s)) (sense (cmd s)) rep]).
Proof.
  intros Hd Hs Hi. unfold_session. simpl. rewrite Hd. simpl. rewrite Hs. simpl.
  rewrite (probe_agrees ino (_ino (self s))) by congruence.
  split_calls.
  all: buffers.
  all: split; [first [reflexivity | by destruct (self s)] |].
  all: split; [intros [? ?]; first [reflexivity | congruence] |].
  all: intros [? | ?]; first [congruence | eauto].
Qed.

(** X9: when the probe itself raises, [execute] raises the same after
    that one call; the session and the command are untouched. *)
Theorem execute_probe_failure s (e : exn) (w : W) :
  _detect_replugged (self s) = true ->
  os_stat_st_ino B (_file_name (self s)) (os s) = (Raise e, w) ->
  let r := execute B status_enum s in
  result r = Raise e
  /\ trace r = [Stat (_file_name (self s)) (Raise e)]
  /\ self (final r) = self s
  /\ cmd (final r) = cmd s.
Proof.
  intros Hd Hs. unfold_session. simpl. rewrite Hd. simpl. rewrite Hs. simpl.
  repeat split.
Qed.


(** X11: after a repair that went through, the command is submitted on
    the new handle, and the session records that handle and the inode
    read after the reopen. *)
Theorem execute_after_repair s (ino : Z) (w : W) (w1 : W) (fd : Z) (w2 : W)
  (ino' : Z) (w3 : W) :
  _detect_replugged (self s) = true ->
  os_stat_st_ino B (_file_name (self s)) (os s) = (Return ino, w) ->
  Some ino <> _ino (self s) ->
  sgio_close B (_fd (self s)) w = (Return tt, w1) ->
  sgio_open B (_file_name (self s)) (_read_write (self s)) w1 = (Return fd, w2) ->
  os_stat_st_ino B (_file_name (self s)) w2 = (Return ino', w3) ->
  datain (cmd s) = [] \/ dataout (cmd s) = [] ->
  let r := execute B status_enum s in
  _fd (self (final r)) = Some fd
  /\ _ino (self (final r)) = Some ino'
  /\ exists dir rep,
       trace r = [Stat (_file_name (self s)) (Return ino);
                  Close (_fd (self s)) (Return tt);
                  Open (_file_name (self s)) (_read_write (self s)) (Return fd);
                  Stat (_file_name (self s)) (Return ino');
                  Execute (Some fd) dir (cdb (cmd s)) (dataout (cmd s))
                          (datain (cmd s)) (sense (cmd s)) rep].
Proof.
  intros Hd Hs Hne Hc Ho Hs' Hone.
  assert (Hb : nonempty (datain (cmd s)) && nonempty (dataout (cmd s)) = false).
  { destruct Hone as [-> | ->]; simpl; [reflexivity | apply andb_false_r]. }
  unfold_session. simpl. rewrite Hd. simpl. rewrite Hs. simpl.
  rewrite (probe_differs ino _ Hne). simpl. rewrite Hc. simpl. rewrite Ho.
  simpl. rewrite Hs'. simpl.
  split_calls.
  all: try discriminate Hb.
  all: try match goal with
         | E : _ && _ = true |- _ => rewrite Hb in E; discriminate E
         | E1 : nonempty _ = true, E2 : nonempty _ = true |- _ =>
             rewrite E1, E2 in Hb; discriminate Hb
         end.
  all: split; [reflexivity |]; split; [reflexivity |].
  all: do 2 eexists; reflexivity.
Qed.

(** X12: whatever happens, [execute] leaves the path, the access mode
    and the detection flag of the session, and the command block and
    the [dataout] buffer of the command, as they were. *)
Theorem execute_preserves_configuration s :
  let r := execute B status_enum s in
  _file_name (self (final r)) = _file_name (self s)
  /\ _read_write (self (final r)) = _read_write (self s)
  /\ _detect_replugged (self (final r)) = _detect_replugged (self s)
  /\ cdb (cmd (final r)) = cdb (cmd s)
  /\ dataout (cmd (final r)) = dataout (cmd s).
Proof. run_session. all: simpl; repeat split; congruence. Qed.

(** X13: the command is submitted at most once and nothing is called
    after the submission: only the last call of [execute] can be the
    transport's [execute]. *)
Theorem execute_submits_last s :
  let r := execute B status_enum s in
  Forall (fun ev => is_execute ev = false) (removelast (trace r))
  /\ (length (List.filter is_execute (trace r)) <= 1)%nat.
Proof. run_session. all: split; [repeat constructor | simpl; lia]. Qed.

(** X14: when [execute] returns normally, every call before the
    submission returned, the transport answered with a status that is
    neither [CHECK_CONDITION] nor [SGIO_ERROR], and the [datain] and
    [sense] buffers of the command hold what the transport left. *)
Theorem execute_normal_return s :
  let r := execute B status_enum s in
  result r = Return tt ->
  Forall (fun ev => raised ev = false) (trace r)
  /\ exists fd dir (st : Z) (din' sn' : bytes),
       last (trace r) = Some (Execute fd dir (cdb (cmd s)) (dataout (cmd s))
                                (datain (cmd s)) (sense (cmd s))
                                (Return (st, din', sn')))
       /\ st <> CHECK_CONDITION status_enum
       /\ st <> SGIO_ERROR status_enum
       /\ datain (cmd (final r)) = din'
       /\ sense (cmd (final r)) = sn'.
Proof.
  run_session. all: intros Hr; try discriminate Hr.
  all: repeat match goal with
         | E : (_ =? _) = false |- _ => apply Z.eqb_neq in E
         end.
  all: split; [repeat constructor |].
  all: do 5 eexists; split; [reflexivity |]; repeat split; assumption.
Qed.

(** X15: an exception of the transport's [execute] is raised to the
    caller as it is: the failed submission is the last call, no status
    is looked at, and the session records the handle it was made on. *)
Theorem execute_transport_exception s fd dir (cb o i sn : bytes) (e : exn) :
  let r := execute B status_enum s in
  In (Execute fd dir cb o i sn (Raise e)) (trace r) ->
  result r = Raise e
  /\ last (trace r) = Some (Execute fd dir cb o i sn (Raise e))
  /\ fd = _fd (self (final r)).
Proof.
  run_session. all: intros H; find_event H.
  all: repeat split.
Qed.

(** X16: whatever status the transport answered with, also one that
    makes [execute] raise, the [datain] and [sense] buffers of the
    command hold what the transport left, and the session records the
    handle the command was submitted on. *)
Theorem transport_answer_kept s fd dir (cb o i sn : bytes) (st : Z)
  (din' sn' : bytes) :
  let r := execute B status_enum s in
  In (Execute fd dir cb o i sn (Return (st, din', sn'))) (trace r) ->
  datain (cmd (final r)) = din' /\ sense (cmd (final r)) = sn'
  /\ fd = _fd (self (final r)).
Proof.
  run_session. all: intros H; find_event H.
  all: repeat split.
Qed.

End SessionBehaviour.

(** ** The session at further concrete inputs *)

Lemma open_then_probe_witness :
  let r := open (scripted replugged_repaired) (session true test_unit_ready) in
  result r = Return tt
  /\ _fd (self (final r)) = Some 4
  /\ _ino (self (final r)) = Some 12
  /\ result (_is_replugged (scripted replugged_repaired) (final r)) = Return false.
Proof.
  destruct (open_then_probe (scripted replugged_repaired)
              (session true test_unit_ready) 4 true 12 true 12 true)
    as (P1 & P2 & P3 & _ & P5); try reflexivity.
  repeat split; assumption.
Defined.

Lemma open_failure_keeps_session_witness :
  let r := open (scripted replugged_open_fails) (session true test_unit_ready) in
  result r = Raise (OSError 19) /\ self (final r) = sg0 true.
Proof.
  destruct (open_failure_keeps_session (scripted replugged_open_fails)
              (session true test_unit_ready) (OSError 19) true)
    as (P1 & P2 & _); try reflexivity.
  split; assumption.
Defined.

Lemma open_probe_failure_keeps_new_handle_witness :
  let r := open (scripted vanishes_after_open) (session true test_unit_ready) in
  result r = Raise (OSError 2)
  /\ _fd (self (final r)) = Some 4
  /\ _ino (self (final r)) = Some 11.
Proof.
  apply (open_probe_failure_keeps_new_handle (scripted vanishes_after_open)
           (session true test_unit_ready) 4 true (OSError 2) true);
    reflexivity.
Defined.


Lemma init_opens_device_witness :
  let r := __init__ (scripted answers_busy) true "/dev/sg0" false true
                    (session true test_unit_ready) in
  result r = Return tt
  /\ self (final r) = mkDevice "/dev/sg0" false (Some 4) (Some 11) true
  /\ trace r = [Open "/dev/sg0" false (Return 4); Stat "/dev/sg0" (Return 11)].
Proof.
  apply (init_opens_device (scripted answers_busy)
           (session true test_unit_ready) "/dev/sg0" false true 4 true 11 true);
    reflexivity.
Defined.

Lemma init_open_failure_witness :
  let r := __init__ (scripted replugged_open_fails) true "/dev/sg0" false true
                    (session true test_unit_ready) in
  result r = Raise (OSError 19)
  /\ trace r = [Open "/dev/sg0" false (Raise (OSError 19))].
Proof.
  apply (init_open_failure (scripted replugged_open_fails)
           (session true test_unit_ready) "/dev/sg0" false true (OSError 19) true);
    reflexivity.
Defined.

Lemma execute_without_detection_witness :
  let r := execute (scripted answers_busy) sam_status (session false inquiry) in
  self (final r) = sg0 false
  /\ exists dir rep,
       trace r = [Execute (Some 3) dir [0x12; 0; 0; 0; 96; 0] []
                          (repeat 0 96%nat) (repeat 0 32%nat) rep].
Proof.
  destruct (execute_without_detection (scripted answers_busy) sam_status
              (session false inquiry) eq_refl) as (P1 & _ & P3).
  split; [exact P1 | exact (P3 (or_intror eq_refl))].
Defined.

Lemma execute_same_identity_witness :
  let r := execute (scripted answers_busy) sam_status (session true inquiry) in
  self (final r) = sg0 true
  /\ exists dir rep,
       trace r = [Stat "/dev/sg0" (Return 11);
                  Execute (Some 3) dir [0x12; 0; 0; 0; 96; 0] []
                          (repeat 0 96%nat) (repeat 0 32%nat) rep].
Proof.
  destruct (execute_same_identity (scripted answers_busy) sam_status
              (session true inquiry) 11 false eq_refl eq_refl eq_refl)
    as (P1 & _ & P3).
  split; [exact P1 | exact (P3 (or_intror eq_refl))].
Defined.

Lemma execute_probe_failure_witness :
  let r := execute (scripted path_vanished) sam_status (session true inquiry) in
  result r = Raise (OSError 2)
  /\ trace r = [Stat "/dev/sg0" (Raise (OSError 2))]
  /\ self (final r) = sg0 true
  /\ cmd (final r) = inquiry.
Proof.
  apply (execute_probe_failure (scripted path_vanished) sam_status
           (session true inquiry) (OSError 2) false); reflexivity.
Defined.


Lemma execute_after_repair_witness :
  let r := execute (scripted replugged_repaired) sam_status (session true inquiry) in
  _fd (self (final r)) = Some 4
  /\ _ino (self (final r)) = Some 12
  /\ exists dir rep,
       trace r = [Stat "/dev/sg0" (Return 12);
                  Close (Some 3) (Return tt);
                  Open "/dev/sg0" false (Return 4);
                  Stat "/dev/sg0" (Return 12);
                  Execute (Some 4) dir [0x12; 0; 0; 0; 96; 0] []
                          (repeat 0 96%nat) (repeat 0 32%nat) rep].
Proof.
  apply (execute_after_repair (scripted replugged_repaired) sam_status
           (session true inquiry) 12 false false 4 true 12 true).
  - reflexivity.
  - reflexivity.
  - vm_compute. discriminate.
  - reflexivity.
  - reflexivity.
  - reflexivity.
  - right. reflexivity.
Defined.

Lemma execute_normal_return_witness :
  let r := execute (scripted replugged_repaired) sam_status (session true inquiry) in
  Forall (fun ev => raised ev = false) (trace r)
  /\ datain (cmd (final r)) = repeat 1 96%nat.
Proof.
  destruct (execute_normal_return (scripted replugged_repaired) sam_status
              (session true inquiry) eq_refl)
    as (P1 & fd & dir & st & din' & sn' & Hl & _ & _ & Hd & _).
  split; [exact P1 | reflexivity].
Defined.

Lemma execute_transport_exception_witness :
  let r := execute (scripted transport_raises) sam_status (session false inquiry) in
  result r = Raise (OSError 5)
  /\ last (trace r)
     = Some (Execute (Some 3) DXFER_FROM_DEV [0x12; 0; 0; 0; 96; 0] []
                     (repeat 0 96%nat) (repeat 0 32%nat) (Raise (OSError 5)))
  /\ Some 3 = _fd (self (final r)).
Proof.
  apply (execute_transport_exception (scripted transport_raises) sam_status
           (session false inquiry) (Some 3) DXFER_FROM_DEV
           [0x12; 0; 0; 0; 96; 0] [] (repeat 0 96%nat) (repeat 0 32%nat)
           (OSError 5)).
  vm_compute. left. reflexivity.
Defined.

Lemma transport_answer_kept_witness :
  let r := execute (scripted answers_check_condition) sam_status
                   (session false inquiry) in
  datain (cmd (final r)) = [] /\ sense (cmd (final r)) = not_ready_sense
  /\ Some 3 = _fd (self (final r)).
Proof.
  apply (transport_answer_kept (scripted answers_check_condition) sam_status
           (session false inquiry) (Some 3) DXFER_FROM_DEV
           [0x12; 0; 0; 0; 96; 0] [] (repeat 0 96%nat) (repeat 0 32%nat)
           0x02 [] not_ready_sense).
  vm_compute. left. reflexivity.
Defined.

(** * The mock device of the test *)

(** X17: the mock device needs a [datain] of sixteen bytes or more: it
    then ends normally, having replaced the first sixteen bytes by the
    parameter data and kept the rest and the length; on anything
    shorter it ends with an [IndexError]. *)
Theorem mock_execute_needs_sixteen_bytes (datain : bytes) :
  ((16 <= length datain)%nat ->
     MockReadCapacity16.execute datain
     = (MockReadCapacity16.Done,
        MockReadCapacity16.parameter_data ++ drop 16 datain)
     /\ length (MockReadCapacity16.execute datain).2 = length datain)
  /\ ((length datain < 16)%nat ->
     (MockReadCapacity16.execute datain).1 = MockReadCapacity16.IndexError).
Proof.
  split.
  - intros H.
    do 16 (destruct datain as [|? datain]; [simpl in H; lia |]).
    split; reflexivity.
  - intros H.
    do 16 (destruct datain as [|? datain]; [reflexivity |]).
    simpl in H. lia.
Qed.

Lemma mock_execute_needs_sixteen_bytes_witness :
  MockReadCapacity16.execute (repeat 0 32%nat)
  = (MockReadCapacity16.Done,
     MockReadCapacity16.parameter_data ++ repeat 0 16%nat)
  /\ (MockReadCapacity16.execute (repeat 0 12%nat)).1
     = MockReadCapacity16.IndexError.
Proof.
  destruct (mock_execute_needs_sixteen_bytes (repeat 0 32%nat)) as [P _].
  destruct (mock_execute_needs_sixteen_bytes (repeat 0 12%nat)) as [_ Q].
  split.
  - apply P. simpl. lia.
  - apply Q. simpl. lia.
Defined.
